(** * Expo-Apollo: the application shell of [App.js]

    [App.js] creates an Apollo client over an in-memory cache, rehydrates
    that cache from [AsyncStorage] behind a boolean gate ([loadingCache]),
    and renders either the splash placeholder or a two-route stack
    navigator.  This file embeds the module-level singletons, the [App]
    component with the two React hooks it uses, the promise chain of its
    effect, and the options callback of the [Chapter] screen; the theorems
    at the end are stated about these definitions. *)

From stdpp Require Import base option list strings pretty.
From Stdlib Require Import Floats.PrimFloat Floats.SpecFloat Floats.FloatOps.

Local Open Scope Z_scope.

#[local] Set Warnings "-register-all".

(** ** JavaScript values *)

Module JS.

(** The values that reach this program as navigation parameters and as
    persisted cache contents: data, without functions or symbols.  A
    Number is a binary64 float, as in the language.  An array is its
    elements; an object is a plain object (prototype [Object.prototype]),
    given by its own properties in insertion order. *)
Inductive Value :=
| JUndefined
| JNull
| JBool (b : bool)
| JNum (x : float)
| JStr (s : string)
| JArr (items : list Value)
| JObj (fields : list (string * Value)).
Arguments JNum x%_float.

(** What a throwing expression completes with. *)
Inductive Error :=
| TypeError.

(** A completion: a value, or an exception on its way up. *)
Inductive Completion (A : Type) :=
| Normal (a : A)
| Throw (e : Error).
Arguments Normal {A} a.
Arguments Throw {A} e.

Definition bind {A B} (c : Completion A) (k : A -> Completion B) : Completion B :=
  match c with
  | Normal a => k a
  | Throw e => Throw e
  end.

Definition isThrow {A} (c : Completion A) : bool :=
  match c with
  | Normal _ => false
  | Throw _ => true
  end.

Notation "'let*' x ':=' c 'in' k" := (bind c (fun x => k))
  (at level 10, x name, c at level 100, k at level 200).

(** [ToBoolean]: the condition of [?:].  The falsy Numbers are the two
    zeros and NaN. *)
Definition ToBoolean (v : Value) : bool :=
  match v with
  | JUndefined | JNull => false
  | JBool b => b
  | JNum x => negb (PrimFloat.is_zero x || PrimFloat.is_nan x)
  | JStr s => negb (String.eqb s "")
  | JArr _ | JObj _ => true
  end.

(** *** Printing a Number

    [Number::toString] in radix 10: the shortest decimal digits that read
    back as the same double (the closest such, a tie going to the even
    digit), laid out plainly when the decimal exponent is between -6 and
    21 and with an exponent otherwise.  A positive finite double is
    [m * 2^e]; it and the ends of its rounding interval are kept as
    integers over the common denominator [den]. *)
Module Number.

(** [x >= 10^n] for the positive rational [x = num / den]. *)
Definition reaches (num den n : Z) : bool :=
  if 0 <=? n then den * 10 ^ n <=? num else den <=? num * 10 ^ (- n).

(** The [n] with [10^(n-1) <= num/den < 10^n]: counted up from a start
    that the bit lengths put at most four below it. *)
Fixpoint magnitude_from (fuel : nat) (num den n : Z) : Z :=
  match fuel with
  | O => n
  | S fuel' => if reaches num den n then magnitude_from fuel' num den (n + 1) else n
  end.

Definition magnitude (num den : Z) : Z :=
  let bits := Z.log2 num - Z.log2 den in
  magnitude_from 8 num den (bits * 30103 / 100000 - 2).

(** [t * 10^p] compared with [num / den]. *)
Definition cmp_scaled (t p num den : Z) : comparison :=
  if 0 <=? p then (t * 10 ^ p * den ?= num) else (t * den ?= num * 10 ^ (- p)).

(** Whether [t * 10^p] rounds to the double whose rounding interval is
    [[low/den, high/den]], closed when the mantissa is even. *)
Definition rounds_to (closed : bool) (low high den t p : Z) : bool :=
  match cmp_scaled t p low den, cmp_scaled t p high den with
  | Gt, Lt => true
  | Eq, _ | _, Eq => closed
  | _, _ => false
  end.

(** The candidate with [k] digits closest to [x/den], when one rounds to
    [x]: [floor (x / 10^p)] or the next integer, at [p = n - k]. *)
Definition candidate (closed : bool) (x low high den n k : Z) : option (Z * Z) :=
  let p := n - k in
  let below := if 0 <=? p then x / (den * 10 ^ p) else x * 10 ^ (- p) / den in
  let above := below + 1 in
  let ok_below := rounds_to closed low high den below p in
  let ok_above := rounds_to closed low high den above p in
  (* the midpoint of the two candidates against x; a tie goes to the
     even one *)
  let nearer_below :=
    match cmp_scaled (2 * below + 1) p (2 * x) den with
    | Lt => false
    | Eq => Z.even below
    | Gt => true
    end in
  if ok_below && ok_above
  then Some (if nearer_below then below else above, p)
  else if ok_below then Some (below, p)
  else if ok_above then Some (above, p)
  else None.

Fixpoint shortest_from (fuel : nat) (closed : bool) (x low high den n k : Z) : Z * Z :=
  match fuel with
  | O => (if 0 <=? n - k then x / (den * 10 ^ (n - k)) else x * 10 ^ (k - n) / den, n - k)
  | S fuel' =>
      match candidate closed x low high den n k with
      | Some c => c
      | None => shortest_from fuel' closed x low high den n (k + 1)
      end
  end.

Fixpoint strip_zeros (fuel : nat) (t p : Z) : Z * Z :=
  match fuel with
  | O => (t, p)
  | S fuel' => if (t mod 10 =? 0) && (0 <? t) then strip_zeros fuel' (t / 10) (p + 1) else (t, p)
  end.

(** The digits [s] and the exponent [n] of the specification's step 5
    for the positive finite double [m * 2^e]. *)
Definition digits (m : positive) (e : Z) : string * Z :=
  let r := if 0 <=? e then Z.pos m * 2 ^ e else Z.pos m in
  let d := if 0 <=? e then 1 else 2 ^ (- e) in
  let gap := if 0 <=? e then 2 ^ e else 1 in
  let x := 4 * r in
  let den := 4 * d in
  let down := if (Z.pos m =? 2 ^ 52) && (-1074 <? e) then gap else 2 * gap in
  let low := x - down in
  let high := x + 2 * gap in
  let closed := Z.even (Z.pos m) in
  let n := magnitude x den in
  let '(t, p) := shortest_from 17 closed x low high den n 1 in
  let '(t, p) := strip_zeros 20 t p in
  let s := pretty t in
  (s, p + Z.of_nat (String.length s)).

Definition zeros (n : Z) : string := String.concat "" (replicate (Z.to_nat n) "0").

(** Steps 6 to 10 of [Number::toString]: the layout of the digits. *)
Definition layout (s : string) (n : Z) : string :=
  let k := Z.of_nat (String.length s) in
  if (k <=? n) && (n <=? 21) then s +:+ zeros (n - k)
  else if (0 <? n) && (n <=? 21)
  then String.substring 0 (Z.to_nat n) s +:+ "." +:+
       String.substring (Z.to_nat n) (Z.to_nat (k - n)) s
  else if (-6 <? n) && (n <=? 0) then "0." +:+ zeros (- n) +:+ s
  else
    let e := n - 1 in
    let exponent := (if e <? 0 then "e-" else "e+") +:+ pretty (Z.abs e) in
    if k =? 1 then s +:+ exponent
    else String.substring 0 1 s +:+ "." +:+
         String.substring 1 (Z.to_nat (k - 1)) s +:+ exponent.

(** [Number::toString(x)] in radix 10. *)
Definition toString (x : float) : string :=
  match Prim2SF x with
  | S754_nan => "NaN"
  | S754_zero _ => "0"
  | S754_infinity negative => if negative then "-Infinity" else "Infinity"
  | S754_finite negative m e =>
      let '(s, n) := digits m e in
      (if negative then "-" else "") +:+ layout s n
  end.

End Number.

Fixpoint join (sep : string) (parts : list string) : string :=
  match parts with
  | [] => ""
  | [p] => p
  | p :: rest => p +:+ sep +:+ join sep rest
  end.

Fixpoint assoc (k : string) (fields : list (string * Value)) : option Value :=
  match fields with
  | [] => None
  | (k', v) :: rest => if String.eqb k k' then Some v else assoc k rest
  end.

(** [ToString], as a template literal applies it to each substitution.
    An array prints as [Array.prototype.join] does, with [null] and
    [undefined] elements printed empty.  An object is converted through
    its [toString] and [valueOf]: with an own [toString] property, which
    in a value made of data is not a function, neither method yields a
    primitive and the conversion throws; without one,
    [Object.prototype.toString] prints it. *)
Fixpoint ToString (v : Value) : Completion string :=
  match v with
  | JUndefined => Normal "undefined"
  | JNull => Normal "null"
  | JBool true => Normal "true"
  | JBool false => Normal "false"
  | JNum x => Normal (Number.toString x)
  | JStr s => Normal s
  | JArr items =>
      let fix elements (xs : list Value) : Completion (list string) :=
        match xs with
        | [] => Normal []
        | x :: rest =>
            let* s := match x with
                      | JUndefined | JNull => Normal ""
                      | _ => ToString x
                      end in
            let* ss := elements rest in
            Normal (s :: ss)
        end in
      let* parts := elements items in
      Normal (join "," parts)
  | JObj fields =>
      match assoc "toString" fields with
      | Some _ => Throw TypeError
      | None => Normal "[object Object]"
      end
  end.

Definition isNullish (v : Value) : bool :=
  match v with
  | JUndefined | JNull => true
  | _ => false
  end.

(** Reading property [k] of [v], as [v?.[k]] does: [undefined] when [v]
    is nullish.  A primitive or an array has only its built-in properties
    ([length], indices, prototype methods); this program reads none of
    those, so every other key reads [undefined]. *)
Definition Get (v : Value) (k : string) : Value :=
  match v with
  | JObj fields => default JUndefined (assoc k fields)
  | _ => JUndefined
  end.

(** One property of an object destructuring pattern, [{ k: ... }] matched
    against [v]: the pattern requires [v] to be coercible to an object,
    which [null] and [undefined] are not, and then reads [v.k]. *)
Definition destructure (k : string) (v : Value) : Completion Value :=
  if isNullish v
  then Throw TypeError
  else Normal (Get v k).

End JS.
Export JS.

(** ** The element tree *)

Module UI.

Record GestureResponseDistance := { horizontal : Z }.

(** The per-screen options this program sets; a key it leaves out is
    [None]. *)
Record Options := {
  title : Value;
  gestureResponseDistance : option GestureResponseDistance;
}.

(** [options=] is given either an object or a callback on the screen's
    props. *)
Inductive ScreenOptions :=
| OptionsObject (o : Options)
| OptionsCallback (f : Value -> Completion Options).

(** Bindings imported from modules of the application that [App.js] only
    passes along. *)
Inductive Imported :=
| HomeScreen
| ChapterScreen
| screenOptions.

Record Screen := {
  name : string;
  component : Imported;
  options : ScreenOptions;
}.

(** Object references: the index of the object in the store of the
    modelled world. *)
Definition Ref := nat.

Record ApolloClient := {
  uri : string;
  client_cache : Ref;
  watchQuery_fetchPolicy : string;
}.

Inductive Element :=
| AppLoading
| ApolloProvider (client : ApolloClient) (children : list Element)
| NavigationContainer (children : list Element)
| StackNavigator (initialRouteName : string) (screenOptions : Imported)
                 (screens : list Screen)
| StatusBar (style : string).

(** Whether any node of the navigation tree occurs in [e]. *)
Fixpoint rendersNavigation (e : Element) : bool :=
  match e with
  | AppLoading => false
  | ApolloProvider _ children => existsb rendersNavigation children
  | NavigationContainer _ => true
  | StackNavigator _ _ _ => true
  | StatusBar _ => false
  end.

(** The [initialRouteName] of the first stack navigator met in [e], in
    document order. *)
Fixpoint initialRoute (e : Element) : option string :=
  let fix first (es : list Element) : option string :=
    match es with
    | [] => None
    | x :: rest =>
        match initialRoute x with
        | Some r => Some r
        | None => first rest
        end
    end in
  match e with
  | AppLoading => None
  | ApolloProvider _ children => first children
  | NavigationContainer children => first children
  | StackNavigator r _ _ => Some r
  | StatusBar _ => None
  end.

End UI.
Export UI.

(** ** The Chapter screen's options callback

    [({ route: { params: { chapter: { number, title } } } }) => ({ ... })]:
    the parameter pattern is matched outside in, then the object literal is
    built; the template literal converts [number], then [title], and
    either conversion may throw. *)
Definition chapterOptions (props : Value) : Completion Options :=
  let* route := destructure "route" props in
  let* params := destructure "params" route in
  let* chapter := destructure "chapter" params in
  let* number := destructure "number" chapter in
  let* title := destructure "title" chapter in
  let* computed :=
    (if ToBoolean number
     then (let* n := ToString number in
           let* t := ToString title in
           Normal (JStr ("Chapter " +:+ n +:+ ": " +:+ t)))
     else Normal title) in
  Normal {|
    title := computed;
    gestureResponseDistance := Some {| horizontal := 500 |};
  |}.

(** The props React Navigation hands to an options callback when a screen
    is activated with [route]. *)
Definition screenProps (route : Value) : Value :=
  JObj [("route", route); ("navigation", JObj [])].

(** A route object as [navigate(name, params)] produces it; the value of
    its key plays no part here. *)
Definition routeOf (name : string) (params : Value) : Value :=
  JObj [("key", JStr (name +:+ "-1")); ("name", JStr name); ("params", params)].

(** ** Module-level singletons *)

(** The store of cache instances: [new InMemoryCache()] appends an empty
    cache and returns its reference. *)
Definition new_InMemoryCache (store : list Value) : Ref * list Value :=
  (length store, store ++ [JObj []]).

(** [const cache = new InMemoryCache();], evaluated once when the module
    is loaded into an empty store. *)
Definition cache : Ref := fst (new_InMemoryCache []).

(** [const client = new ApolloClient({ uri, cache, defaultOptions })]. *)
Definition client : ApolloClient := {|
  uri := "https://api.graphql.guide/graphql";
  client_cache := cache;
  watchQuery_fetchPolicy := "cache-and-network";
|}.

(** ** The runtime the component lives in *)

(** The two hook slots of [App], in call order.  A slot is [None] until
    the first render fills it. *)
Record Hooks := {
  state_slot : option bool;
  effect_slot : option (list Value);
}.

(** The closures the program hands to the runtime, by what they do when
    called. *)
Inductive Callback :=
| CallSetLoadingCache (b : bool).

Inductive StorageBackend :=
| AsyncStorage.

(** The argument of [persistCache]. *)
Record PersistOptions := {
  pc_cache : Ref;
  pc_storage : StorageBackend;
}.

Inductive Status :=
| Outstanding
| Fulfilled
| Rejected (reason : Value).

(** A handler pair registered with [then]; an omitted handler is [None]. *)
Record Reaction := {
  onFulfilled : option Callback;
  onRejected : option Callback;
}.

(** A promise returned by [persistCache]: the options it was called with,
    its status, and the reactions registered on it so far. *)
Record Promise := {
  rehydrates : PersistOptions;
  status : Status;
  reactions : list Reaction;
}.

Record World := {
  hooks : Hooks;
  caches : list Value;
  stored : option Value;
  promises : list Promise;
  timers : list Callback;
  view : option Element;
}.

Definition with_hooks (h : Hooks) (w : World) : World :=
  {| hooks := h; caches := caches w; stored := stored w;
     promises := promises w; timers := timers w; view := view w |}.

Definition with_caches (c : list Value) (w : World) : World :=
  {| hooks := hooks w; caches := c; stored := stored w;
     promises := promises w; timers := timers w; view := view w |}.

Definition with_promises (ps : list Promise) (w : World) : World :=
  {| hooks := hooks w; caches := caches w; stored := stored w;
     promises := ps; timers := timers w; view := view w |}.

Definition with_timers (ts : list Callback) (w : World) : World :=
  {| hooks := hooks w; caches := caches w; stored := stored w;
     promises := promises w; timers := ts; view := view w |}.

Definition with_view (e : Element) (w : World) : World :=
  {| hooks := hooks w; caches := caches w; stored := stored w;
     promises := promises w; timers := timers w; view := Some e |}.

(** An effect body, run by the runtime after the render that scheduled
    it has been committed. *)
Definition Effect := World -> World.

(** *** Hooks *)

(** [useState(init)]: the first render stores [init]; every render
    returns the stored value.  The setter it also returns is
    [CallSetLoadingCache]. *)
Definition useState (init : bool) (h : Hooks) : bool * Hooks :=
  match state_slot h with
  | Some v => (v, h)
  | None => (init, {| state_slot := Some init; effect_slot := effect_slot h |})
  end.

(** [Object.is] on the values of a dependency array: on Numbers NaN is
    itself and the two zeros differ.  Object identity is not part of
    [Value]; two objects are taken to differ. *)
Definition Object_is (a b : Value) : bool :=
  match a, b with
  | JUndefined, JUndefined | JNull, JNull => true
  | JBool x, JBool y => Bool.eqb x y
  | JNum x, JNum y => PrimFloat.Leibniz.eqb x y
  | JStr x, JStr y => String.eqb x y
  | _, _ => false
  end.

(** React's comparison of two dependency arrays: position by position
    over the shorter of the two. *)
Fixpoint areHookInputsEqual (next prev : list Value) : bool :=
  match next, prev with
  | n :: next', p :: prev' => Object_is n p && areHookInputsEqual next' prev'
  | _, _ => true
  end.

(** [useEffect(body, deps)]: schedules [body] on the first render and on
    a render whose [deps] differ from the previous ones. *)
Definition useEffect (body : Effect) (deps : list Value) (h : Hooks)
  : list Effect * Hooks :=
  match effect_slot h with
  | Some prev =>
      if areHookInputsEqual deps prev
      then ([], h)
      else ([body], {| state_slot := state_slot h; effect_slot := Some deps |})
  | None => ([body], {| state_slot := state_slot h; effect_slot := Some deps |})
  end.

(** A call of the state setter. *)
Definition call (cb : Callback) (w : World) : World :=
  match cb with
  | CallSetLoadingCache b =>
      with_hooks {| state_slot := Some b; effect_slot := effect_slot (hooks w) |} w
  end.

(** *** Promises *)

(** [persistCache(options)]: starts reading the persisted cache and
    returns at once with a new outstanding promise. *)
Definition persistCache (o : PersistOptions) (w : World) : nat * World :=
  (length (promises w),
   with_promises
     (promises w ++ [{| rehydrates := o; status := Outstanding; reactions := [] |}]) w).

Definition run_reaction (st : Status) (r : Reaction) (w : World) : World :=
  match st with
  | Outstanding => w
  | Fulfilled => from_option (fun cb => call cb w) w (onFulfilled r)
  | Rejected _ => from_option (fun cb => call cb w) w (onRejected r)
  end.

(** [p.then(f)] with the single argument [f].  On an outstanding promise
    the reaction is queued; on a settled one it runs.  The promise that
    [then] returns is dropped by the program and is not represented. *)
Definition promise_then (p : nat) (f : Callback) (w : World) : World :=
  let r := {| onFulfilled := Some f; onRejected := None |} in
  match promises w !! p with
  | Some cell =>
      match status cell with
      | Outstanding =>
          with_promises
            (<[p := {| rehydrates := rehydrates cell; status := Outstanding;
                       reactions := reactions cell ++ [r] |}]> (promises w)) w
      | st => run_reaction st r w
      end
  | None => w
  end.

(** The own enumerable string-keyed properties of a value, as
    [Object.keys] lists them: the properties of an object, the indices of
    an array or of a string (here by byte), none for another primitive. *)
Definition ownEntries (data : Value) : list (string * Value) :=
  match data with
  | JObj fields => fields
  | JArr items => imap (fun i x => (pretty i, x)) items
  | JStr s => imap (fun i c => (pretty i, JStr (String c ""))) (String.list_ascii_of_string s)
  | _ => []
  end.

(** What the persistence layer has done by the time its promise is
    fulfilled.  Nothing, when nothing was persisted or what was persisted
    is falsy ([data != null] in the persistor, [if (data)] in
    [InMemoryCache.restore]).  Otherwise the cache named by the options,
    still empty at that point, has been filled with the entries of the
    persisted data, key by key: an object snapshot arrives as it was
    written. *)
Definition restore (o : PersistOptions) (w : World) : World :=
  match stored w with
  | Some data =>
      if ToBoolean data
      then with_caches (<[pc_cache o := JObj (ownEntries data)]> (caches w)) w
      else w
  | None => w
  end.

(** How the storage layer ends a rehydration. *)
Inductive Outcome :=
| Resolve
| Reject (reason : Value).

Definition status_of (o : Outcome) : Status :=
  match o with
  | Resolve => Fulfilled
  | Reject reason => Rejected reason
  end.

(** Settling promise [p]: only an outstanding promise settles; its status
    is fixed and its queued reactions run in registration order. *)
Definition settle (p : nat) (o : Outcome) (w : World) : World :=
  match promises w !! p with
  | Some cell =>
      match status cell with
      | Outstanding =>
          let w1 := match o with
                    | Resolve => restore (rehydrates cell) w
                    | Reject _ => w
                    end in
          let w2 := with_promises
                      (<[p := {| rehydrates := rehydrates cell;
                                 status := status_of o;
                                 reactions := [] |}]> (promises w1)) w1 in
          foldl (fun acc r => run_reaction (status_of o) r acc) w2 (reactions cell)
      | _ => w
      end
  | None => w
  end.

(** ** The component *)

(** The body of the effect:
    [persistCache({ cache, storage: AsyncStorage }).then(() => setLoadingCache(false))]. *)
Definition rehydrate : Effect := fun w =>
  let '(p, w1) := persistCache {| pc_cache := cache; pc_storage := AsyncStorage |} w in
  promise_then p (CallSetLoadingCache false) w1.

(** What [App] returns once the cache is loaded. *)
Definition navigationTree : Element :=
  ApolloProvider client
    [NavigationContainer
       [StackNavigator "Home" screenOptions
          [{| name := "Home";
              component := HomeScreen;
              options := OptionsObject
                {| title := JStr "📖 The GraphQL Guide";
                   gestureResponseDistance := None |} |};
           {| name := "Chapter";
              component := ChapterScreen;
              options := OptionsCallback chapterOptions |}];
        StatusBar "light"]].

(** [export default function App()]: one call of the function component
    against its hook slots; returns the element, the effects scheduled by
    this render, and the updated slots. *)
Definition App (h : Hooks) : Element * list Effect * Hooks :=
  let '(loadingCache, h1) := useState true h in
  let '(scheduled, h2) := useEffect rehydrate [] h1 in
  if loadingCache
  then (AppLoading, scheduled, h2)
  else (navigationTree, scheduled, h2).

(** ** The event loop *)

(** What can happen to the running application: React renders [App] (the
    first such event is the mount), the storage layer settles a promise,
    or a registered timer fires. *)
Inductive Event :=
| Render
| Settle (p : nat) (o : Outcome)
| Timeout (n : nat).

(** A render commits the returned element and then runs the effects it
    scheduled. *)
Definition render (w : World) : World :=
  let '(element, scheduled, h) := App (hooks w) in
  foldl (fun acc (body : Effect) => body acc) (with_view element (with_hooks h w)) scheduled.

Definition step (w : World) (e : Event) : World :=
  match e with
  | Render => render w
  | Settle p o => settle p o w
  | Timeout n =>
      match timers w !! n with
      | Some cb => call cb (with_timers (delete n (timers w)) w)
      | None => w
      end
  end.

Definition run (w : World) (es : list Event) : World := foldl step w es.

(** The process right after the module has been loaded: the cache
    singleton exists and is empty, nothing is mounted, and [persisted] is
    what an earlier process left in [AsyncStorage]. *)
Definition boot (persisted : option Value) : World := {|
  hooks := {| state_slot := None; effect_slot := None |};
  caches := snd (new_InMemoryCache []);
  stored := persisted;
  promises := [];
  timers := [];
  view := None;
|}.

(** ** The readiness gate, as the specification names it *)

Inductive CacheReadiness :=
| Pending
| Ready.

(** The value [loadingCache] has in the next render: the stored state, or
    the initial state [true] when nothing is mounted yet. *)
Definition loadingCache (w : World) : bool :=
  fst (useState true (hooks w)).

Definition readiness (w : World) : CacheReadiness :=
  if loadingCache w then Pending else Ready.

(** The element a render of [App] returns in world [w]. *)
Definition rendered (w : World) : Element := fst (fst (App (hooks w))).

(** Rehydration attempts issued so far: one promise per call of
    [persistCache]. *)
Definition attempts (w : World) : nat := length (promises w).

Definition readiness_eqb (a b : CacheReadiness) : bool :=
  match a, b with
  | Pending, Pending | Ready, Ready => true
  | _, _ => false
  end.

(** The changes of [CacheReadiness] along a run, oldest first, each as
    the pair of the value before and the value after the step. *)
Fixpoint transitions (w : World) (es : list Event)
  : list (CacheReadiness * CacheReadiness) :=
  match es with
  | [] => []
  | e :: rest =>
      let w' := step w e in
      if readiness_eqb (readiness w) (readiness w')
      then transitions w' rest
      else (readiness w, readiness w') :: transitions w' rest
  end.

(** What the client's queries read from: the cache instance the client
    was configured with. *)
Definition clientCache (c : ApolloClient) (w : World) : option Value :=
  caches w !! client_cache c.

(** The screens registered in the stack navigators of an element. *)
Fixpoint screensOf (e : Element) : list Screen :=
  match e with
  | AppLoading => []
  | ApolloProvider _ children => flat_map screensOf children
  | NavigationContainer children => flat_map screensOf children
  | StackNavigator _ _ screens => screens
  | StatusBar _ => []
  end.

Definition findScreen (n : string) (e : Element) : option Screen :=
  find (fun sc => String.eqb (name sc) n) (screensOf e).

(** The options of a screen for given props: an options object as it
    is, an options callback applied to the props. *)
Definition optionsFor (sc : Screen) (props : Value) : Completion Options :=
  match options sc with
  | OptionsObject o => Normal o
  | OptionsCallback f => f props
  end.

(** The options computed when route [n] of the rendered tree is
    activated with [route]; [None] when the tree has no such screen. *)
Definition activate (n : string) (route : Value) : option (Completion Options) :=
  (fun sc => optionsFor sc (screenProps route)) <$> findScreen n navigationTree.

(** [route.params.chapter], read leniently: [undefined] when a level is
    missing. *)
Definition chapterParam (route : Value) : Value :=
  Get (Get route "params") "chapter".

(** ** The reachable worlds

    Every world a run can reach from [boot] is one of four shapes.  The
    shapes and the moves between them are read off [step]; [step_shape]
    below proves that they are exactly what the code does. *)

Inductive Phase :=
| Unmounted
| Rehydrating
| Failed (reason : Value)
| Loaded (committed : bool).

Definition theOptions : PersistOptions :=
  {| pc_cache := cache; pc_storage := AsyncStorage |}.

Definition theReaction : Reaction :=
  {| onFulfilled := Some (CallSetLoadingCache false); onRejected := None |}.

Definition shape (persisted : option Value) (ph : Phase) : World := {|
  hooks :=
    match ph with
    | Unmounted => {| state_slot := None; effect_slot := None |}
    | Rehydrating | Failed _ => {| state_slot := Some true; effect_slot := Some [] |}
    | Loaded _ => {| state_slot := Some false; effect_slot := Some [] |}
    end;
  caches :=
    match ph, persisted with
    | Loaded _, Some data => [if ToBoolean data then JObj (ownEntries data) else JObj []]
    | _, _ => [JObj []]
    end;
  stored := persisted;
  promises :=
    match ph with
    | Unmounted => []
    | Rehydrating =>
        [{| rehydrates := theOptions; status := Outstanding; reactions := [theReaction] |}]
    | Failed reason =>
        [{| rehydrates := theOptions; status := Rejected reason; reactions := [] |}]
    | Loaded _ =>
        [{| rehydrates := theOptions; status := Fulfilled; reactions := [] |}]
    end;
  timers := [];
  view :=
    match ph with
    | Unmounted => None
    | Loaded true => Some navigationTree
    | _ => Some AppLoading
    end;
|}.

Definition phase_step (ph : Phase) (e : Event) : Phase :=
  match ph, e with
  | Unmounted, Render => Rehydrating
  | Rehydrating, Settle O Resolve => Loaded false
  | Rehydrating, Settle O (Reject reason) => Failed reason
  | Loaded _, Render => Loaded true
  | _, _ => ph
  end.

Definition phase_run (ph : Phase) (es : list Event) : Phase := foldl phase_step ph es.

Definition phase_readiness (ph : Phase) : CacheReadiness :=
  match ph with
  | Loaded _ => Ready
  | _ => Pending
  end.

(** ** Shapes of runs *)

Definition isRender (e : Event) : bool :=
  match e with Render => true | _ => false end.

Definition isSettle (e : Event) : bool :=
  match e with Settle _ _ => true | _ => false end.

(** A run in which the storage layer never answers. *)
Definition stalled (es : list Event) : bool := forallb (fun e => negb (isSettle e)) es.

(** A run in which the component has been mounted. *)
Definition mounted (es : list Event) : bool := existsb isRender es.

(** The status of promise [p], when it exists. *)
Definition statusOf (p : nat) (w : World) : option Status :=
  status <$> promises w !! p.

(** The title expression of the Chapter screen's callback,
    [number ? `Chapter ${number}: ${title}` : title], on its own. *)
Definition chapterTitle (number title : Value) : Completion Value :=
  if ToBoolean number
  then (let* n := ToString number in
        let* t := ToString title in
        Normal (JStr ("Chapter " +:+ n +:+ ": " +:+ t)))
  else Normal title.

(** Whether that expression throws: [number] is truthy and one of the
    two substitutions cannot be converted to a string. *)
Definition titleThrows (number title : Value) : bool :=
  ToBoolean number && (isThrow (ToString number) || isThrow (ToString title)).

(** * Verification *)

(** ** Every run stays within the four shapes *)

Lemma boot_shape persisted : boot persisted = shape persisted Unmounted.
Proof. reflexivity. Qed.

Lemma step_shape persisted ph e :
  step (shape persisted ph) e = shape persisted (phase_step ph e).
Proof.
  destruct e as [|p o|n].
  - destruct ph as [| |reason|[|]]; reflexivity.
  - destruct ph as [| |reason|committed]; destruct p as [|p]; try reflexivity.
    destruct o; [|reflexivity].
    destruct persisted as [data|]; [|reflexivity].
    unfold shape. cbn. unfold restore. cbn.
    destruct (ToBoolean data); reflexivity.
  - destruct ph as [| |reason|[|]]; reflexivity.
Qed.

Lemma run_shape persisted es ph :
  run (shape persisted ph) es = shape persisted (phase_run ph es).
Proof.
  revert ph. induction es as [|e es IH]; intros ph; [reflexivity|].
  unfold run, phase_run in *. cbn [foldl]. rewrite step_shape. apply IH.
Qed.

Lemma run_boot persisted es :
  run (boot persisted) es = shape persisted (phase_run Unmounted es).
Proof. rewrite boot_shape. apply run_shape. Qed.

Lemma readiness_shape persisted ph :
  readiness (shape persisted ph) = phase_readiness ph.
Proof. destruct ph as [| |reason|[|]]; reflexivity. Qed.

Lemma rendered_shape persisted ph :
  rendered (shape persisted ph) =
  match ph with Loaded _ => navigationTree | _ => AppLoading end.
Proof. destruct ph as [| |reason|[|]]; reflexivity. Qed.

Lemma loaded_stays_loaded c e : exists c', phase_step (Loaded c) e = Loaded c'.
Proof. destruct e as [|p o|n]; cbn; eauto. Qed.

Lemma phase_step_ready ph e :
  phase_readiness ph = Ready -> phase_readiness (phase_step ph e) = Ready.
Proof.
  destruct ph as [| |reason|c]; try discriminate. intros _.
  destruct (loaded_stays_loaded c e) as [c' ->]. reflexivity.
Qed.

Lemma transitions_shape persisted es ph :
  transitions (shape persisted ph) es = [] \/
  (phase_readiness ph = Pending /\
   transitions (shape persisted ph) es = [(Pending, Ready)]).
Proof.
  revert ph. induction es as [|e es IH]; intros ph; [left; reflexivity|].
  cbn [transitions]. rewrite step_shape, !readiness_shape.
  destruct (phase_readiness ph) eqn:Hph, (phase_readiness (phase_step ph e)) eqn:Hph'; cbn.
  - destruct (IH (phase_step ph e)) as [H|[_ H]]; [left|right]; auto.
  - right. split; [reflexivity|].
    destruct (IH (phase_step ph e)) as [->|[H _]]; [reflexivity|congruence].
  - rewrite (phase_step_ready ph e Hph) in Hph'. discriminate.
  - destruct (IH (phase_step ph e)) as [H|[H _]]; [left; exact H|congruence].
Qed.

Lemma statusOf_shape persisted ph p :
  statusOf p (shape persisted ph) =
  match ph, p with
  | Rehydrating, O => Some Outstanding
  | Failed reason, O => Some (Rejected reason)
  | Loaded _, O => Some Fulfilled
  | _, _ => None
  end.
Proof. destruct ph as [| |reason|c], p as [|p]; reflexivity. Qed.

(** Without a [Settle], a run stays in the shape the mount left. *)
Lemma phase_run_stalled_rehydrating es :
  stalled es = true -> phase_run Rehydrating es = Rehydrating.
Proof.
  induction es as [|e es IH]; intros H; [reflexivity|].
  cbn in H. apply andb_prop in H as [He H].
  destruct e as [|p o|n]; try discriminate; exact (IH H).
Qed.

Lemma phase_run_stalled es :
  stalled es = true ->
  phase_run Unmounted es = if mounted es then Rehydrating else Unmounted.
Proof.
  induction es as [|e es IH]; intros H; [reflexivity|].
  cbn in H. apply andb_prop in H as [He H].
  destruct e as [|p o|n]; try discriminate; cbn [phase_run foldl mounted existsb isRender orb].
  - apply (phase_run_stalled_rehydrating es H).
  - exact (IH H).
Qed.

Lemma phase_run_mounted es :
  phase_run Unmounted es = Unmounted <-> mounted es = false.
Proof.
  assert (Hkeep : forall es ph, ph <> Unmounted -> phase_run ph es <> Unmounted).
  { clear. induction es as [|e es IH]; intros ph H; [exact H|].
    apply IH. destruct ph as [| |reason|c]; [congruence|..];
      destruct e as [|[|p] [|r]|n]; discriminate. }
  induction es as [|e es IH]; [split; reflexivity|].
  cbn [phase_run foldl mounted existsb].
  destruct e as [|p o|n]; cbn.
  - split; [|discriminate]. intros H. exfalso. eapply Hkeep; [|exact H]. discriminate.
  - exact IH.
  - exact IH.
Qed.

(** ** The readiness gate *)

(** C1, as the specification states it, fails.  In the run below the
    rehydration promise rejects; the gate stays shut and the placeholder
    stays on screen, also after a further render, whereas the same run
    with a fulfilled promise opens the gate. *)
Lemma rejected_rehydration_gate_stays_shut :
  statusOf 0
    (run (boot None) [Render; Settle 0 (Reject (JStr "storage unavailable")); Render])
  = Some (Rejected (JStr "storage unavailable")) /\
  readiness
    (run (boot None) [Render; Settle 0 (Reject (JStr "storage unavailable")); Render])
  = Pending /\
  view
    (run (boot None) [Render; Settle 0 (Reject (JStr "storage unavailable")); Render])
  = Some AppLoading /\
  readiness (run (boot None) [Render; Settle 0 Resolve; Render]) = Ready /\
  readiness
    (run (boot None) [Render; Settle 0 (Reject (JStr "storage unavailable")); Render])
  <> readiness (run (boot None) [Render; Settle 0 Resolve; Render]).
Proof. repeat split; try reflexivity. discriminate. Qed.

(** C1 (amended).  [then] is called with a fulfilment handler only.  In
    every run in which the rehydration promise rejects, the completion
    callback is not invoked and CacheReadiness stays Pending; the gate is
    open exactly in the runs in which a rehydration promise has been
    fulfilled. *)
Theorem gate_opens_on_fulfilment_only persisted es :
  (forall p reason,
      statusOf p (run (boot persisted) es) = Some (Rejected reason) ->
      readiness (run (boot persisted) es) = Pending) /\
  (readiness (run (boot persisted) es) = Ready <->
   exists p, statusOf p (run (boot persisted) es) = Some Fulfilled).
Proof.
  rewrite run_boot, readiness_shape.
  destruct (phase_run Unmounted es) as [| |reason|c]; split.
  all: try (intros p r; rewrite statusOf_shape; destruct p; cbn; congruence).
  all: split; try discriminate; try (exists 0%nat; reflexivity); try reflexivity.
  all: intros [p H]; rewrite statusOf_shape in H; destruct p; discriminate.
Qed.

Lemma gate_opens_on_fulfilment_only_witness :
  readiness (run (boot None) [Render; Settle 0 (Reject JNull); Render]) = Pending /\
  (exists p, statusOf p (run (boot None) [Render; Settle 0 Resolve]) = Some Fulfilled) /\
  readiness (run (boot None) [Render; Settle 0 Resolve; Render]) = Ready.
Proof.
  split; [|split].
  - exact (proj1 (gate_opens_on_fulfilment_only None
                    [Render; Settle 0 (Reject JNull); Render]) 0%nat JNull eq_refl).
  - exact (proj1 (proj2 (gate_opens_on_fulfilment_only None
                           [Render; Settle 0 Resolve])) eq_refl).
  - exact (proj2 (proj2 (gate_opens_on_fulfilment_only None
                           [Render; Settle 0 Resolve; Render]))
             (ex_intro _ 0%nat eq_refl)).
Defined.

(** C2.  Along every run CacheReadiness changes at most once, and the
    one change is from Pending to Ready; from a world that is Ready every
    event leads to a world that is Ready; a further settlement of a
    promise in such a world changes nothing at all; and calling the
    completion callback in any world that is Ready leaves the world as it
    is. *)
Theorem readiness_changes_once persisted es :
  (transitions (boot persisted) es = [] \/
   transitions (boot persisted) es = [(Pending, Ready)]) /\
  (forall e,
      readiness (run (boot persisted) es) = Ready ->
      readiness (step (run (boot persisted) es) e) = Ready) /\
  (forall p o,
      readiness (run (boot persisted) es) = Ready ->
      step (run (boot persisted) es) (Settle p o) = run (boot persisted) es) /\
  (forall w, readiness w = Ready -> call (CallSetLoadingCache false) w = w).
Proof.
  split; [|split; [|split]].
  - rewrite boot_shape. destruct (transitions_shape persisted es Unmounted) as [H|[_ H]]; auto.
  - intros e. rewrite run_boot, step_shape, !readiness_shape. apply phase_step_ready.
  - intros p o. rewrite run_boot, step_shape, readiness_shape.
    destruct (phase_run Unmounted es) as [| |reason|c]; try discriminate. reflexivity.
  - intros [[[[|]|] eslot] cs st ps ts v]; try discriminate. reflexivity.
Qed.

Lemma readiness_changes_once_witness :
  readiness (step (run (boot None) [Render; Settle 0 Resolve]) Render) = Ready /\
  step (run (boot None) [Render; Settle 0 Resolve]) (Settle 0 (Reject JNull))
  = run (boot None) [Render; Settle 0 Resolve] /\
  call (CallSetLoadingCache false) (run (boot None) [Render; Settle 0 Resolve])
  = run (boot None) [Render; Settle 0 Resolve].
Proof.
  pose proof (readiness_changes_once None [Render; Settle 0 Resolve])
    as [_ [Hstep [Hsettle Hcall]]].
  split; [|split].
  - exact (Hstep Render eq_refl).
  - exact (Hsettle 0%nat (Reject JNull) eq_refl).
  - exact (Hcall (run (boot None) [Render; Settle 0 Resolve]) eq_refl).
Defined.

(** C4.  A process starts with CacheReadiness Pending, and in every
    world of a run in which it is Pending a render of [App] returns the
    loading placeholder, which contains no node of the navigation tree;
    nothing else has been committed to the screen. *)
Theorem pending_renders_placeholder persisted es :
  readiness (boot persisted) = Pending /\
  (readiness (run (boot persisted) es) = Pending ->
   rendered (run (boot persisted) es) = AppLoading /\
   rendersNavigation (rendered (run (boot persisted) es)) = false /\
   forall element,
     view (run (boot persisted) es) = Some element -> element = AppLoading).
Proof.
  split; [reflexivity|].
  rewrite run_boot, readiness_shape, rendered_shape.
  destruct (phase_run Unmounted es) as [| |reason|c]; try discriminate; intros _.
  all: repeat split; cbn; congruence.
Qed.

Lemma pending_renders_placeholder_witness :
  rendered (run (boot None) [Render; Render]) = AppLoading.
Proof.
  exact (proj1 (proj2 (pending_renders_placeholder None [Render; Render]) eq_refl)).
Defined.

(** C5.  In every run in which no rehydration promise is ever settled,
    whatever else happens (renders, timer ticks), CacheReadiness is
    Pending at every point: no timer is registered that could fire, every
    issued promise is still outstanding, and the placeholder is what a
    render returns and all that has been committed. *)
Theorem stalled_rehydration_stays_pending persisted es :
  stalled es = true ->
  readiness (run (boot persisted) es) = Pending /\
  timers (run (boot persisted) es) = [] /\
  (forall p st, statusOf p (run (boot persisted) es) = Some st -> st = Outstanding) /\
  rendered (run (boot persisted) es) = AppLoading /\
  (mounted es = true -> view (run (boot persisted) es) = Some AppLoading).
Proof.
  intros H. rewrite run_boot, readiness_shape, rendered_shape.
  rewrite (phase_run_stalled _ H).
  destruct (mounted es); repeat split; try reflexivity; try discriminate.
  all: intros p st; rewrite statusOf_shape; destruct p; cbn; congruence.
Qed.

Lemma stalled_rehydration_stays_pending_witness :
  readiness (run (boot None) [Render; Timeout 0; Render; Timeout 3; Render]) = Pending.
Proof.
  exact (proj1 (stalled_rehydration_stays_pending None
                  [Render; Timeout 0; Render; Timeout 3; Render] eq_refl)).
Defined.

Lemma attempts_shape persisted ph :
  attempts (shape persisted ph) = match ph with Unmounted => 0%nat | _ => 1%nat end.
Proof. destruct ph as [| |reason|c]; reflexivity. Qed.

(** The effect body issues one request and returns while it is still
    outstanding; the hook slots are as they were. *)
Lemma rehydrate_returns w :
  hooks (rehydrate w) = hooks w /\
  attempts (rehydrate w) = S (attempts w) /\
  statusOf (attempts w) (rehydrate w) = Some Outstanding.
Proof.
  unfold rehydrate, persistCache, promise_then, attempts, statusOf. cbn.
  rewrite list_lookup_middle by reflexivity. cbn.
  rewrite length_insert, length_app, Nat.add_1_r.
  rewrite list_lookup_insert_eq by (rewrite length_app; cbn; lia).
  auto.
Qed.

(** C6.  A run issues no rehydration request before the mount and
    exactly one from the mount on, however many renders and other events
    follow; the mounting render is the step that issues it; and the
    effect body that issues it returns with the request still outstanding
    and the gate untouched, the completion being left to a later
    event. *)
Theorem one_rehydration_attempt persisted es :
  attempts (run (boot persisted) es) = (if mounted es then 1 else 0)%nat /\
  attempts (boot persisted) = 0%nat /\
  attempts (step (boot persisted) Render) = 1%nat /\
  (forall w,
      hooks (rehydrate w) = hooks w /\
      attempts (rehydrate w) = S (attempts w) /\
      statusOf (attempts w) (rehydrate w) = Some Outstanding).
Proof.
  split; [|split; [reflexivity|split; [reflexivity|exact rehydrate_returns]]].
  rewrite run_boot, attempts_shape.
  pose proof (phase_run_mounted es) as Hm.
  destruct (phase_run Unmounted es) as [| |reason|c], (mounted es); try reflexivity.
  all: try (destruct Hm as [Hm _]; specialize (Hm eq_refl); discriminate).
  all: destruct Hm as [_ Hm]; specialize (Hm eq_refl); discriminate.
Qed.

(** C7.  In every world of a run in which CacheReadiness is Ready, a
    render of [App] returns the navigation tree and not the placeholder,
    the stack navigator of that tree has [Home] as its initial route, and
    the next render commits that tree to the screen. *)
Theorem ready_renders_navigation persisted es :
  readiness (run (boot persisted) es) = Ready ->
  rendered (run (boot persisted) es) = navigationTree /\
  rendered (run (boot persisted) es) <> AppLoading /\
  initialRoute (rendered (run (boot persisted) es)) = Some "Home" /\
  view (step (run (boot persisted) es) Render) = Some navigationTree.
Proof.
  rewrite run_boot, step_shape, readiness_shape, rendered_shape.
  destruct (phase_run Unmounted es) as [| |reason|c]; try discriminate; intros _.
  repeat split; try reflexivity. discriminate.
Qed.

Lemma ready_renders_navigation_witness :
  initialRoute (rendered (run (boot None) [Render; Settle 0 Resolve])) = Some "Home".
Proof.
  exact (proj1 (proj2 (proj2 (ready_renders_navigation None
                                [Render; Settle 0 Resolve] eq_refl)))).
Defined.

(** C10.  The client is configured with the cache created at module
    load; every rehydration request a run issues names that same cache;
    and when an outstanding request is fulfilled, a persisted snapshot
    object is what the client reads from its cache. *)
Theorem rehydrated_cache_is_client_cache persisted es :
  client_cache client = cache /\
  (forall p cell,
      promises (run (boot persisted) es) !! p = Some cell ->
      pc_cache (rehydrates cell) = client_cache client) /\
  (forall p fields,
      statusOf p (run (boot persisted) es) = Some Outstanding ->
      stored (run (boot persisted) es) = Some (JObj fields) ->
      clientCache client (step (run (boot persisted) es) (Settle p Resolve))
      = Some (JObj fields)).
Proof.
  split; [reflexivity|]. rewrite run_boot. split.
  - intros p cell.
    destruct (phase_run Unmounted es) as [| |reason|c]; destruct p as [|p]; cbn;
      intros H; try discriminate; injection H as <-; reflexivity.
  - intros p fields. rewrite statusOf_shape, step_shape.
    destruct (phase_run Unmounted es) as [| |reason|c]; destruct p as [|p]; cbn;
      intros H; try discriminate.
    intros ->. reflexivity.
Qed.

Lemma rehydrated_cache_is_client_cache_witness :
  pc_cache theOptions = client_cache client /\
  clientCache client
    (step (run (boot (Some (JObj [("ROOT_QUERY", JObj [])]))) [Render]) (Settle 0 Resolve))
  = Some (JObj [("ROOT_QUERY", JObj [])]).
Proof.
  split.
  - exact (proj1 (proj2 (rehydrated_cache_is_client_cache None [Render; Render]))
             0%nat
             {| rehydrates := theOptions; status := Outstanding; reactions := [theReaction] |}
             eq_refl).
  - exact (proj2 (proj2 (rehydrated_cache_is_client_cache
                           (Some (JObj [("ROOT_QUERY", JObj [])])) [Render]))
             0%nat [("ROOT_QUERY", JObj [])] eq_refl eq_refl).
Defined.

(** ** The Chapter screen *)

(** The printer on Numbers of each layout: an integer, fractions, the
    first exponent form, an integer beyond 2^53 whose shortest digits are
    padded with zeros, a small fraction in exponent form, and the values
    that are not finite. *)
Lemma Number_toString_layouts :
  Number.toString 3 = "3" /\
  Number.toString (-0.5) = "-0.5" /\
  Number.toString 1.5 = "1.5" /\
  Number.toString 1e21 = "1e+21" /\
  Number.toString 9007199254740992 = "9007199254740992" /\
  Number.toString 0x1p+66 = "73786976294838210000" /\
  Number.toString 0x1p+70 = "1.1805916207174113e+21" /\
  Number.toString 0x1p-20 = "9.5367431640625e-7" /\
  Number.toString 0 = "0" /\
  Number.toString (-0) = "0" /\
  Number.toString nan = "NaN" /\
  Number.toString neg_infinity = "-Infinity".
Proof. repeat split; vm_compute; reflexivity. Qed.

Lemma Get_nullish v k : isNullish v = true -> Get v k = JUndefined.
Proof. destruct v; try discriminate; reflexivity. Qed.

Lemma Get_present v k : isNullish (Get v k) = false -> isNullish v = false.
Proof. destruct v; try reflexivity; discriminate. Qed.

Lemma destructure_present k v : isNullish v = false -> destructure k v = Normal (Get v k).
Proof. unfold destructure. intros ->. reflexivity. Qed.

Lemma destructure_nullish k v : isNullish v = true -> destructure k v = Throw TypeError.
Proof. unfold destructure. intros ->. reflexivity. Qed.

Lemma activate_Chapter route :
  activate "Chapter" route = Some (chapterOptions (screenProps route)).
Proof. reflexivity. Qed.

(** The callback on a route whose [params.chapter] is neither [null] nor
    [undefined]: what is left is the title expression. *)
Lemma chapterOptions_present route :
  isNullish (chapterParam route) = false ->
  chapterOptions (screenProps route) =
  let* computed := chapterTitle (Get (chapterParam route) "number")
                                (Get (chapterParam route) "title") in
  Normal {|
    title := computed;
    gestureResponseDistance := Some {| horizontal := 500 |};
  |}.
Proof.
  unfold chapterParam. intros Hchapter.
  pose proof (Get_present _ _ Hchapter) as Hparams.
  pose proof (Get_present _ _ Hparams) as Hroute.
  unfold chapterOptions, screenProps, chapterTitle.
  cbn -[ToString ToBoolean].
  rewrite (destructure_present "params" route Hroute). cbn [bind].
  rewrite (destructure_present "chapter" _ Hparams). cbn [bind].
  rewrite !(destructure_present _ _ Hchapter). reflexivity.
Qed.

(** The callback on a route whose [params.chapter] is [null] or
    [undefined], the latter also when [params] or the route itself is. *)
Lemma chapterOptions_absent route :
  isNullish (chapterParam route) = true ->
  chapterOptions (screenProps route) = Throw TypeError.
Proof.
  unfold chapterParam. intros Hchapter.
  unfold chapterOptions, screenProps. cbn -[ToString ToBoolean].
  destruct (isNullish route) eqn:Hroute.
  { rewrite (destructure_nullish "params" route Hroute). reflexivity. }
  rewrite (destructure_present "params" route Hroute). cbn [bind].
  destruct (isNullish (Get route "params")) eqn:Hparams.
  { rewrite (destructure_nullish "chapter" _ Hparams). reflexivity. }
  rewrite (destructure_present "chapter" _ Hparams). cbn [bind].
  rewrite (destructure_nullish "number" _ Hchapter). reflexivity.
Qed.

(** The title expression throws exactly when [titleThrows] says so. *)
Lemma chapterTitle_throws number title :
  titleThrows number title = true -> chapterTitle number title = Throw TypeError.
Proof.
  unfold titleThrows, chapterTitle.
  destruct (ToBoolean number); [|discriminate].
  destruct (ToString number) as [n|[]]; [|reflexivity].
  destruct (ToString title) as [t|[]]; [discriminate|reflexivity].
Qed.

(** Otherwise it yields the string built from the two conversions, or
    [title] itself under a falsy [number]. *)
Lemma chapterTitle_returns number title :
  titleThrows number title = false ->
  exists computed,
    chapterTitle number title = Normal computed /\
    if ToBoolean number
    then exists n t,
           ToString number = Normal n /\
           ToString title = Normal t /\
           computed = JStr ("Chapter " +:+ n +:+ ": " +:+ t)
    else computed = title.
Proof.
  unfold titleThrows, chapterTitle.
  destruct (ToBoolean number); [|eauto].
  destruct (ToString number) as [n|[]]; [|discriminate].
  destruct (ToString title) as [t|[]]; [|discriminate].
  intros _. eexists. split; [reflexivity|]. eauto.
Qed.

Lemma chapterOptions_returns route o :
  isNullish (chapterParam route) = false ->
  chapterOptions (screenProps route) = Normal o ->
  titleThrows (Get (chapterParam route) "number") (Get (chapterParam route) "title") = false /\
  chapterTitle (Get (chapterParam route) "number") (Get (chapterParam route) "title")
  = Normal (title o) /\
  gestureResponseDistance o = Some {| horizontal := 500 |}.
Proof.
  intros Hc. rewrite (chapterOptions_present route Hc).
  destruct (titleThrows (Get (chapterParam route) "number")
                        (Get (chapterParam route) "title")) eqn:Ht.
  - rewrite (chapterTitle_throws _ _ Ht). discriminate.
  - destruct (chapterTitle_returns _ _ Ht) as (computed & -> & _).
    cbn. intros H. injection H as <-. auto.
Qed.

(** C3.  When the Chapter route is activated with a route whose
    parameters hold a chapter, the title of the computed options is the
    string [Chapter {number}: {title}], with both substitutions printed
    as a template literal prints them, when [number] is truthy, and is
    [title] itself otherwise; options are computed unless [number] is
    truthy and one of the two cannot be printed.  The chapter
    [{number: 3, title: "Queries"}] gives ["Chapter 3: Queries"], and
    [{number: null, title: "Introduction"}] gives ["Introduction"]. *)
Theorem chapter_title route :
  (isNullish (chapterParam route) = false ->
   (forall o,
       activate "Chapter" route = Some (Normal o) ->
       if ToBoolean (Get (chapterParam route) "number")
       then exists n t,
              ToString (Get (chapterParam route) "number") = Normal n /\
              ToString (Get (chapterParam route) "title") = Normal t /\
              title o = JStr ("Chapter " +:+ n +:+ ": " +:+ t)
       else title o = Get (chapterParam route) "title") /\
   (titleThrows (Get (chapterParam route) "number")
                (Get (chapterParam route) "title") = false ->
    exists o, activate "Chapter" route = Some (Normal o))) /\
  activate "Chapter"
    (routeOf "Chapter"
       (JObj [("chapter", JObj [("number", JNum 3); ("title", JStr "Queries")])]))
  = Some (Normal {| title := JStr "Chapter 3: Queries";
                    gestureResponseDistance := Some {| horizontal := 500 |} |}) /\
  activate "Chapter"
    (routeOf "Chapter"
       (JObj [("chapter", JObj [("number", JNull); ("title", JStr "Introduction")])]))
  = Some (Normal {| title := JStr "Introduction";
                    gestureResponseDistance := Some {| horizontal := 500 |} |}).
Proof.
  split; [|split; reflexivity].
  intros Hc. rewrite activate_Chapter. split.
  - intros o H. injection H as H.
    destruct (chapterOptions_returns route o Hc H) as (Ht & Hcomputed & _).
    destruct (chapterTitle_returns _ _ Ht) as (computed & Heq & Hshape).
    rewrite Heq in Hcomputed. injection Hcomputed as <-. exact Hshape.
  - intros Ht. rewrite (chapterOptions_present route Hc).
    destruct (chapterTitle_returns _ _ Ht) as (computed & -> & _). cbn. eauto.
Qed.

Lemma chapter_title_witness :
  (exists n t,
     ToString (JNum 1.5) = Normal n /\
     ToString (JStr "Caching") = Normal t /\
     title {| title := JStr "Chapter 1.5: Caching";
              gestureResponseDistance := Some {| horizontal := 500 |} |}
     = JStr ("Chapter " +:+ n +:+ ": " +:+ t)) /\
  (exists o,
     activate "Chapter"
       (routeOf "Chapter"
          (JObj [("chapter", JObj [("number", JNum 1e21); ("title", JStr "Big")])]))
     = Some (Normal o)).
Proof.
  split.
  - exact (proj1 (proj1 (chapter_title
      (routeOf "Chapter"
         (JObj [("chapter", JObj [("number", JNum 1.5); ("title", JStr "Caching")])])))
      eq_refl)
      {| title := JStr "Chapter 1.5: Caching";
         gestureResponseDistance := Some {| horizontal := 500 |} |}
      eq_refl).
  - exact (proj2 (proj1 (chapter_title
      (routeOf "Chapter"
         (JObj [("chapter", JObj [("number", JNum 1e21); ("title", JStr "Big")])])))
      eq_refl) eq_refl).
Defined.

(** C8.  The navigation tree registers a Chapter screen, and whenever an
    activation of it yields options, they carry a gesture response
    distance whose horizontal component is 500; options are yielded for
    every route that holds a chapter whose title expression does not
    throw. *)
Theorem chapter_gesture_distance route :
  (exists completion, activate "Chapter" route = Some completion) /\
  (forall o,
      activate "Chapter" route = Some (Normal o) ->
      gestureResponseDistance o = Some {| horizontal := 500 |}) /\
  (isNullish (chapterParam route) = false ->
   titleThrows (Get (chapterParam route) "number")
               (Get (chapterParam route) "title") = false ->
   exists o,
     activate "Chapter" route = Some (Normal o) /\
     horizontal <$> gestureResponseDistance o = Some 500).
Proof.
  rewrite activate_Chapter. split; [eauto|split].
  - intros o H. injection H as H.
    destruct (isNullish (chapterParam route)) eqn:Hc.
    + rewrite (chapterOptions_absent route Hc) in H. discriminate.
    + apply (chapterOptions_returns route o Hc H).
  - intros Hc Ht. rewrite (chapterOptions_present route Hc).
    destruct (chapterTitle_returns _ _ Ht) as (computed & -> & _).
    cbn. eexists. split; reflexivity.
Qed.

Lemma chapter_gesture_distance_witness :
  gestureResponseDistance
    {| title := JStr "Chapter 3: Queries";
       gestureResponseDistance := Some {| horizontal := 500 |} |}
  = Some {| horizontal := 500 |} /\
  exists o,
    activate "Chapter"
      (routeOf "Chapter"
         (JObj [("chapter", JObj [("number", JNum 3); ("title", JStr "Queries")])]))
    = Some (Normal o) /\
    horizontal <$> gestureResponseDistance o = Some 500.
Proof.
  pose proof (chapter_gesture_distance
    (routeOf "Chapter"
       (JObj [("chapter", JObj [("number", JNum 3); ("title", JStr "Queries")])])))
    as [_ [Hall Hpresent]].
  split; [exact (Hall _ eq_refl) | exact (Hpresent eq_refl eq_refl)].
Defined.

(** C9, as stated, fails.  The route below holds a chapter, so the
    destructuring succeeds, and the activation throws all the same: the
    chapter's [number] is truthy and its [title] is an object with an own
    [toString] property that is not a function, which the template
    literal cannot convert to a string. *)
Lemma chapter_present_yet_options_throw :
  isNullish
    (chapterParam
       (routeOf "Chapter"
          (JObj [("chapter",
                  JObj [("number", JNum 1);
                        ("title", JObj [("toString", JNum 1)])])])))
  = false /\
  activate "Chapter"
    (routeOf "Chapter"
       (JObj [("chapter",
               JObj [("number", JNum 1);
                     ("title", JObj [("toString", JNum 1)])])]))
  = Some (Throw TypeError).
Proof. split; reflexivity. Qed.

(** C9 (amended).  The options callback of the Chapter screen matches
    [route.params.chapter] against an object pattern without a default.
    For every route in which [params] or [params.chapter] is absent,
    that is [undefined] or [null], the activation throws.  For every
    route in which [params.chapter] is present the destructuring
    succeeds, and the activation returns options and does not throw
    unless [number] is truthy and [number] or [title] cannot be converted
    to a string, in which case it throws too. *)
Theorem chapter_options_partial route :
  (isNullish (Get route "params") = true \/ isNullish (chapterParam route) = true ->
   exists e, activate "Chapter" route = Some (Throw e)) /\
  (isNullish (chapterParam route) = false ->
   (titleThrows (Get (chapterParam route) "number")
                (Get (chapterParam route) "title") = true ->
    activate "Chapter" route = Some (Throw TypeError)) /\
   (titleThrows (Get (chapterParam route) "number")
                (Get (chapterParam route) "title") = false ->
    (exists o, activate "Chapter" route = Some (Normal o)) /\
    forall e, activate "Chapter" route <> Some (Throw e))).
Proof.
  rewrite activate_Chapter. split.
  - intros H. assert (Hc : isNullish (chapterParam route) = true).
    { destruct H as [H|H]; [|exact H].
      unfold chapterParam. rewrite (Get_nullish _ "chapter" H). reflexivity. }
    rewrite (chapterOptions_absent route Hc). eauto.
  - intros Hc. rewrite (chapterOptions_present route Hc). split; intros Ht.
    + rewrite (chapterTitle_throws _ _ Ht). reflexivity.
    + destruct (chapterTitle_returns _ _ Ht) as (computed & -> & _). cbn.
      split; [eauto|discriminate].
Qed.

Lemma chapter_options_partial_witness :
  (exists e, activate "Chapter" (routeOf "Chapter" JUndefined) = Some (Throw e)) /\
  (exists e, activate "Chapter" (routeOf "Chapter" (JObj [("id", JNum 7)])) = Some (Throw e)) /\
  activate "Chapter"
    (routeOf "Chapter"
       (JObj [("chapter", JObj [("number", JNum 2); ("title", JArr [JObj [("toString", JNull)]])])]))
  = Some (Throw TypeError) /\
  (exists o,
     activate "Chapter"
       (routeOf "Chapter"
          (JObj [("chapter", JObj [("number", JNum 0); ("title", JObj [("toString", JNum 1)])])]))
     = Some (Normal o)).
Proof.
  split; [|split; [|split]].
  - exact (proj1 (chapter_options_partial (routeOf "Chapter" JUndefined))
             (or_introl eq_refl)).
  - exact (proj1 (chapter_options_partial (routeOf "Chapter" (JObj [("id", JNum 7)])))
             (or_intror eq_refl)).
  - exact (proj1 (proj2 (chapter_options_partial
      (routeOf "Chapter"
         (JObj [("chapter",
                 JObj [("number", JNum 2); ("title", JArr [JObj [("toString", JNull)]])])])))
      eq_refl) eq_refl).
  - exact (proj1 (proj2 (proj2 (chapter_options_partial
      (routeOf "Chapter"
         (JObj [("chapter",
                 JObj [("number", JNum 0); ("title", JObj [("toString", JNum 1)])])])))
      eq_refl) eq_refl)).
Defined.

(** * Further properties of the component and of its screens *)

(** ** Runs, continued *)

Lemma phase_run_app ph es1 es2 :
  phase_run ph (es1 ++ es2) = phase_run (phase_run ph es1) es2.
Proof. unfold phase_run. apply foldl_app. Qed.

Lemma phase_run_failed reason es : phase_run (Failed reason) es = Failed reason.
Proof.
  induction es as [|e es IH]; [reflexivity|].
  destruct e as [|p o|n]; exact IH.
Qed.

Lemma phase_run_loaded c es : phase_run (Loaded c) es = Loaded (c || mounted es).
Proof.
  revert c. induction es as [|e es IH]; intros c.
  - rewrite orb_false_r. reflexivity.
  - destruct e as [|p o|n]; cbn [phase_run foldl phase_step mounted existsb isRender].
    + fold (phase_run (Loaded true) es). rewrite IH. rewrite orb_true_r. reflexivity.
    + fold (phase_run (Loaded c) es). rewrite IH. reflexivity.
    + fold (phase_run (Loaded c) es). rewrite IH. reflexivity.
Qed.

(** A step opens the gate only by fulfilling the outstanding promise. *)
Lemma phase_step_opens ph e :
  phase_readiness ph = Pending ->
  phase_readiness (phase_step ph e) = Ready ->
  ph = Rehydrating /\ e = Settle 0 Resolve.
Proof.
  destruct ph as [| |reason|c]; destruct e as [|[|p] [|r]|n]; cbn;
    intros H1 H2; try discriminate; auto.
Qed.

(** The effect body touches nothing but the promise table. *)
Lemma rehydrate_frame w :
  hooks (rehydrate w) = hooks w /\
  view (rehydrate w) = view w /\
  caches (rehydrate w) = caches w /\
  timers (rehydrate w) = timers w.
Proof.
  unfold rehydrate, persistCache, promise_then. cbn.
  rewrite list_lookup_middle by reflexivity. cbn. auto.
Qed.

(** X1.  Once the storage layer answers a mounted, still waiting
    application with success, the gate is open, and it stays open
    whatever follows; a render after the answer puts the navigation tree
    on screen. *)
Theorem gate_opens_when_storage_answers persisted es1 es2 :
  mounted es1 = true ->
  stalled es1 = true ->
  readiness (run (boot persisted) (es1 ++ Settle 0 Resolve :: es2)) = Ready /\
  (mounted es2 = true ->
   view (run (boot persisted) (es1 ++ Settle 0 Resolve :: es2)) = Some navigationTree).
Proof.
  intros Hm Hs. rewrite run_boot, readiness_shape, phase_run_app.
  rewrite (phase_run_stalled es1 Hs), Hm.
  change (phase_run Rehydrating (Settle 0 Resolve :: es2))
    with (phase_run (Loaded false) es2).
  rewrite phase_run_loaded. split; [reflexivity|]. cbn. intros ->. reflexivity.
Qed.

Lemma gate_opens_when_storage_answers_witness :
  readiness
    (run (boot None) ([Render; Timeout 1; Render] ++ Settle 0 Resolve :: [Timeout 0; Render]))
  = Ready /\
  view
    (run (boot None) ([Render; Timeout 1; Render] ++ Settle 0 Resolve :: [Timeout 0; Render]))
  = Some navigationTree.
Proof.
  pose proof (gate_opens_when_storage_answers None
                [Render; Timeout 1; Render] [Timeout 0; Render] eq_refl eq_refl)
    as [Hready Hview].
  split; [exact Hready | exact (Hview eq_refl)].
Defined.

(** X2.  A rejection is final.  Once the rehydration promise has been
    rejected, every continuation of the run leaves it rejected, issues no
    second request, keeps CacheReadiness Pending and the placeholder on
    screen, and leaves the client's cache empty. *)
Theorem rejection_is_final persisted es1 es2 reason :
  statusOf 0 (run (boot persisted) es1) = Some (Rejected reason) ->
  statusOf 0 (run (boot persisted) (es1 ++ es2)) = Some (Rejected reason) /\
  attempts (run (boot persisted) (es1 ++ es2)) = 1%nat /\
  readiness (run (boot persisted) (es1 ++ es2)) = Pending /\
  view (run (boot persisted) (es1 ++ es2)) = Some AppLoading /\
  clientCache client (run (boot persisted) (es1 ++ es2)) = Some (JObj []).
Proof.
  rewrite !run_boot, phase_run_app, statusOf_shape.
  destruct (phase_run Unmounted es1) as [| |r|c]; try discriminate.
  intros H. injection H as ->. rewrite phase_run_failed.
  repeat split.
Qed.

Lemma rejection_is_final_witness :
  readiness
    (run (boot (Some (JObj [("ROOT_QUERY", JObj [])])))
       ([Render; Settle 0 (Reject JNull)] ++ [Settle 0 Resolve; Render; Timeout 0]))
  = Pending.
Proof.
  exact (proj1 (proj2 (proj2 (rejection_is_final
    (Some (JObj [("ROOT_QUERY", JObj [])]))
    [Render; Settle 0 (Reject JNull)] [Settle 0 Resolve; Render; Timeout 0]
    JNull eq_refl)))).
Defined.

(** X3.  The one step that can open the gate is the fulfilment of
    promise 0 while it is outstanding.  When a step of a run turns
    CacheReadiness from Pending to Ready, that step is [Settle 0 Resolve],
    the promise was outstanding before it, and right after it the
    client's cache holds the snapshot object that had been persisted, or
    is still empty when nothing had been. *)
Theorem gate_opened_by_fulfilment_step persisted es e :
  readiness (run (boot persisted) es) = Pending ->
  readiness (step (run (boot persisted) es) e) = Ready ->
  e = Settle 0 Resolve /\
  statusOf 0 (run (boot persisted) es) = Some Outstanding /\
  (persisted = None ->
   clientCache client (step (run (boot persisted) es) e) = Some (JObj [])) /\
  (forall fields,
      persisted = Some (JObj fields) ->
      clientCache client (step (run (boot persisted) es) e) = Some (JObj fields)).
Proof.
  rewrite run_boot, step_shape, !readiness_shape. intros H1 H2.
  destruct (phase_step_opens _ _ H1 H2) as [Hph ->]. rewrite Hph.
  repeat split.
  - intros ->. reflexivity.
  - intros fields ->. reflexivity.
Qed.

Lemma gate_opened_by_fulfilment_step_witness :
  clientCache client
    (step (run (boot (Some (JObj [("ROOT_QUERY", JObj [("__typename", JStr "Query")])])))
            [Render])
       (Settle 0 Resolve))
  = Some (JObj [("ROOT_QUERY", JObj [("__typename", JStr "Query")])]).
Proof.
  exact (proj2 (proj2 (proj2 (gate_opened_by_fulfilment_step
    (Some (JObj [("ROOT_QUERY", JObj [("__typename", JStr "Query")])]))
    [Render] (Settle 0 Resolve) eq_refl eq_refl)))
    [("ROOT_QUERY", JObj [("__typename", JStr "Query")])] eq_refl).
Defined.

(** X4.  While CacheReadiness is Pending the client's cache is the empty
    cache created at module load: neither a render, nor a timer, nor a
    rejected rehydration writes to it. *)
Theorem pending_cache_is_empty persisted es :
  readiness (run (boot persisted) es) = Pending ->
  clientCache client (run (boot persisted) es) = Some (JObj []).
Proof.
  rewrite run_boot, readiness_shape.
  destruct (phase_run Unmounted es) as [| |r|c]; try discriminate; reflexivity.
Qed.

Lemma pending_cache_is_empty_witness :
  clientCache client
    (run (boot (Some (JStr "snapshot"))) [Render; Settle 0 (Reject JNull); Render])
  = Some (JObj []).
Proof.
  exact (pending_cache_is_empty (Some (JStr "snapshot"))
           [Render; Settle 0 (Reject JNull); Render] eq_refl).
Defined.

(** X5.  What is on screen never goes back.  In every run the committed
    view is nothing, the placeholder or the navigation tree; the
    navigation tree is on screen only when CacheReadiness is Ready; and
    once it is on screen every further event leaves it there. *)
Theorem view_never_regresses persisted es :
  (view (run (boot persisted) es) = None \/
   view (run (boot persisted) es) = Some AppLoading \/
   view (run (boot persisted) es) = Some navigationTree) /\
  (view (run (boot persisted) es) = Some navigationTree ->
   readiness (run (boot persisted) es) = Ready /\
   forall e, view (step (run (boot persisted) es) e) = Some navigationTree).
Proof.
  rewrite run_boot, readiness_shape. split.
  - destruct (phase_run Unmounted es) as [| |r|[|]]; cbn; auto.
  - destruct (phase_run Unmounted es) as [| |r|[|]]; cbn; try discriminate.
    intros _. split; [reflexivity|]. intros e. rewrite step_shape.
    destruct e as [|p o|n]; reflexivity.
Qed.

Lemma view_never_regresses_witness :
  view (step (run (boot None) [Render; Settle 0 Resolve; Render]) (Settle 0 (Reject JNull)))
  = Some navigationTree.
Proof.
  exact (proj2 (proj2 (view_never_regresses None [Render; Settle 0 Resolve; Render])
                  eq_refl) (Settle 0 (Reject JNull))).
Defined.

(** X6.  A render repeated without anything happening in between
    changes nothing: in every world of a run, rendering twice gives the
    world that rendering once gives, so no render after the mount runs
    the effect again. *)
Theorem render_is_idempotent persisted es :
  step (step (run (boot persisted) es) Render) Render
  = step (run (boot persisted) es) Render.
Proof.
  rewrite run_boot, !step_shape. f_equal.
  destruct (phase_run Unmounted es) as [| |r|c]; reflexivity.
Qed.

(** X7.  Rendering has no effect on the gate, in any world whatever and
    not only in those a run reaches: a render leaves the hook state as
    the next render will read it, so CacheReadiness and the element
    [App] returns are the same before and after, and the element
    committed to the screen is the one [App] returned. *)
Theorem render_keeps_readiness w :
  readiness (step w Render) = readiness w /\
  rendered (step w Render) = rendered w /\
  view (step w Render) = Some (rendered w).
Proof.
  unfold readiness, loadingCache, rendered. cbn [step].
  unfold render, App, useState, useEffect.
  destruct w as [[sslot eslot] cs st ps ts v]. cbn -[rehydrate].
  destruct sslot as [[|]|], eslot as [prev|]; cbn -[rehydrate];
    repeat match goal with
           | |- context [rehydrate ?x] =>
               destruct (rehydrate_frame x) as (-> & -> & _ & _)
           end; cbn -[rehydrate]; auto.
Qed.

(** ** The route registry *)

(** What activating a route by name computes, by cases on the name. *)
Lemma activate_cases n route :
  activate n route =
  if String.eqb "Home" n
  then Some (Normal {| title := JStr "📖 The GraphQL Guide";
                       gestureResponseDistance := None |})
  else if String.eqb "Chapter" n
       then Some (chapterOptions (screenProps route))
       else None.
Proof.
  unfold activate, findScreen. cbn -[String.eqb chapterOptions screenProps].
  destruct (String.eqb "Home" n); [reflexivity|].
  destruct (String.eqb "Chapter" n); reflexivity.
Qed.

(** X8.  The navigator registers the routes [Home] and [Chapter] and no
    other: a name resolves to a screen exactly when it is one of the two.
    Its initial route is registered, and activating the initial route
    yields options for every route object, also one without
    parameters. *)
Theorem registered_routes n route :
  (is_Some (activate n route) <-> n = "Home" \/ n = "Chapter") /\
  (exists initial,
      initialRoute navigationTree = Some initial /\
      exists o, activate initial route = Some (Normal o)).
Proof.
  split.
  - rewrite activate_cases.
    destruct (String.eqb_spec "Home" n) as [<-|Hhome].
    { split; [auto|]. intros _. eexists. reflexivity. }
    destruct (String.eqb_spec "Chapter" n) as [<-|Hchapter].
    { split; [auto|]. intros _. eexists. reflexivity. }
    split; [intros [x Hx]; discriminate|]. intros [H|H]; congruence.
  - exists "Home". split; [reflexivity|]. eexists. reflexivity.
Qed.

Lemma registered_routes_witness :
  is_Some (activate "Chapter" (routeOf "Chapter" JUndefined)) /\
  ("Settings" = "Home" \/ "Settings" = "Chapter" -> False).
Proof.
  split.
  - exact (proj2 (proj1 (registered_routes "Chapter" (routeOf "Chapter" JUndefined)))
             (or_intror eq_refl)).
  - intros H.
    destruct (proj2 (proj1 (registered_routes "Settings" JUndefined)) H) as [x Hx].
    discriminate Hx.
Defined.

(** X9.  Activating a route throws for the route [Chapter] only, and
    there in two situations: [route.params.chapter] is [undefined] or
    [null], or the chapter's [number] is truthy and its [number] or
    [title] cannot be converted to a string.  [Home] never throws,
    whatever it is activated with. *)
Theorem activation_throws_only_for_chapter n route e :
  activate n route = Some (Throw e) <->
  n = "Chapter" /\
  (isNullish (chapterParam route) = true \/
   titleThrows (Get (chapterParam route) "number")
               (Get (chapterParam route) "title") = true).
Proof.
  rewrite activate_cases.
  destruct (String.eqb_spec "Home" n) as [<-|Hhome].
  { split; [discriminate|]. intros [H _]. discriminate H. }
  destruct (String.eqb_spec "Chapter" n) as [<-|Hchapter].
  - destruct (isNullish (chapterParam route)) eqn:Hc.
    + rewrite (chapterOptions_absent route Hc). destruct e. split; auto.
    + rewrite (chapterOptions_present route Hc).
      destruct (titleThrows (Get (chapterParam route) "number")
                            (Get (chapterParam route) "title")) eqn:Ht.
      * rewrite (chapterTitle_throws _ _ Ht). destruct e. split; auto.
      * destruct (chapterTitle_returns _ _ Ht) as (computed & -> & _). cbn.
        split; [discriminate|]. intros [_ [H|H]]; discriminate H.
  - split; [discriminate|]. intros [H _]. congruence.
Qed.

Lemma activation_throws_only_for_chapter_witness :
  activate "Chapter" (routeOf "Chapter" (JObj [("chapter", JNull)])) = Some (Throw TypeError) /\
  activate "Chapter"
    (routeOf "Chapter"
       (JObj [("chapter", JObj [("number", JObj [("toString", JStr "x")])])]))
  = Some (Throw TypeError).
Proof.
  split.
  - exact (proj2 (activation_throws_only_for_chapter "Chapter"
                    (routeOf "Chapter" (JObj [("chapter", JNull)])) TypeError)
             (conj eq_refl (or_introl eq_refl))).
  - exact (proj2 (activation_throws_only_for_chapter "Chapter"
                    (routeOf "Chapter"
                       (JObj [("chapter", JObj [("number", JObj [("toString", JStr "x")])])]))
                    TypeError)
             (conj eq_refl (or_intror eq_refl))).
Defined.

(** X10.  The Chapter screen's options depend on nothing but the
    chapter's [number] and [title].  Two routes that each hold a chapter
    and agree on these two properties get the same options, whatever
    else the chapters, the parameters or the routes contain. *)
Theorem chapter_options_ignore_other_fields route1 route2 :
  isNullish (chapterParam route1) = false ->
  isNullish (chapterParam route2) = false ->
  Get (chapterParam route1) "number" = Get (chapterParam route2) "number" ->
  Get (chapterParam route1) "title" = Get (chapterParam route2) "title" ->
  activate "Chapter" route1 = activate "Chapter" route2.
Proof.
  intros H1 H2 Hnumber Htitle.
  rewrite !activate_Chapter, (chapterOptions_present _ H1), (chapterOptions_present _ H2).
  rewrite Hnumber, Htitle. reflexivity.
Qed.

Lemma chapter_options_ignore_other_fields_witness :
  activate "Chapter"
    (routeOf "Chapter"
       (JObj [("chapter", JObj [("number", JNum 3); ("title", JStr "Queries")])]))
  = activate "Chapter"
      (JObj [("params",
              JObj [("from", JStr "Home");
                    ("chapter",
                     JObj [("id", JNum 41); ("title", JStr "Queries");
                           ("sections", JArr [JStr "a"; JStr "b"]);
                           ("number", JNum 3)])])]).
Proof.
  exact (chapter_options_ignore_other_fields
    (routeOf "Chapter"
       (JObj [("chapter", JObj [("number", JNum 3); ("title", JStr "Queries")])]))
    (JObj [("params",
            JObj [("from", JStr "Home");
                  ("chapter",
                   JObj [("id", JNum 41); ("title", JStr "Queries");
                         ("sections", JArr [JStr "a"; JStr "b"]);
                         ("number", JNum 3)])])])
    eq_refl eq_refl eq_refl eq_refl).
Defined.

(** X11.  The title of a chapter's options is a string exactly when the
    chapter's [number] is truthy or its [title] is a string.  With a
    falsy [number], a [title] that is missing or is not a string is
    handed on as it is. *)
Theorem chapter_title_is_string route o :
  isNullish (chapterParam route) = false ->
  activate "Chapter" route = Some (Normal o) ->
  (exists s, title o = JStr s) <->
  ToBoolean (Get (chapterParam route) "number") = true \/
  exists s, Get (chapterParam route) "title" = JStr s.
Proof.
  intros Hc. rewrite activate_Chapter. intros H. injection H as H.
  destruct (chapterOptions_returns route o Hc H) as (Ht & Hcomputed & _).
  destruct (chapterTitle_returns _ _ Ht) as (computed & Heq & Hshape).
  rewrite Heq in Hcomputed. injection Hcomputed as <-.
  destruct (ToBoolean (Get (chapterParam route) "number")).
  - destruct Hshape as (n & t & _ & _ & ->). split; [auto|]. intros _. eauto.
  - rewrite Hshape. split; [auto|]. intros [H'|H']; [discriminate|exact H'].
Qed.

Lemma chapter_title_is_string_witness :
  exists s,
    title {| title := JStr "Chapter 7: undefined";
             gestureResponseDistance := Some {| horizontal := 500 |} |} = JStr s.
Proof.
  exact (proj2 (chapter_title_is_string
                  (routeOf "Chapter" (JObj [("chapter", JObj [("number", JNum 7)])]))
                  {| title := JStr "Chapter 7: undefined";
                     gestureResponseDistance := Some {| horizontal := 500 |} |}
                  eq_refl eq_refl)
           (or_introl eq_refl)).
Defined.

(** ** The effect and the dependency array *)

(** X12.  In any world whatever, a render issues a rehydration request
    exactly when it is the component's first render: with the effect
    slot still empty it issues one, and with the slot filled, whatever
    dependency array an earlier render stored there, it issues none. *)
Theorem render_issues_request_at_mount_only w :
  attempts (step w Render) =
  match effect_slot (hooks w) with
  | None => S (attempts w)
  | Some _ => attempts w
  end.
Proof.
  cbn [step]. unfold render, App, useState, useEffect.
  destruct w as [[sslot eslot] cs st ps ts v]. cbn -[rehydrate].
  destruct sslot as [[|]|], eslot as [prev|]; cbn -[rehydrate]; try reflexivity.
  all: match goal with
       | |- attempts (rehydrate ?x) = _ =>
           destruct (rehydrate_returns x) as (_ & -> & _)
       end; reflexivity.
Qed.
